(** * dagster/cli/pipeline.py: the console printers of the pipeline CLI

    A shallow embedding of the [list], [print] and [execute] commands of
    [python_modules/dagster/dagster/cli/pipeline.py]: the pipeline printers
    ([list_command], [print_pipeline], [format_argument_dict],
    [format_description]), the consumer of the execution iterator
    ([process_results_for_console]) and the metrics report
    ([print_metrics_to_console]).

    Every [printer(...)] and [click.echo(...)] call of the source appends
    its argument, as one entry, to an output sink that is threaded through
    the functions, so a [for] loop of the source is a [fold_left] over that
    sink. *)

From Stdlib Require Import ZArith String Ascii List Bool Lia.
From stdpp Require Import base gmap strings list.
Import ListNotations.

(** ** Python helpers *)

(** [s * n] on a string. *)
Fixpoint str_mul (s : string) (n : nat) : string :=
  match n with
  | O => ""
  | S n' => s +:+ str_mul s n'
  end.

(** [sep.join(parts)]. *)
Fixpoint str_join (sep : string) (parts : list string) : string :=
  match parts with
  | [] => ""
  | [x] => x
  | x :: rest => x +:+ sep +:+ str_join sep rest
  end.

(** The strings passed to [printer] / [click.echo] so far, oldest first: one
    entry per call, which is several lines of text when the string has line
    breaks. *)
Definition Sink := list string.

(** One call [printer(line)] (or [click.echo(line)]). *)
Definition printer (out : Sink) (line : string) : Sink := out ++ [line].

(** ** The pipeline definition, as far as the printers read it *)

(** [arg_def.dagster_type.name] *)
Record DagsterType := { type_name : string }.

Record ArgumentDefinition := { dagster_type : DagsterType }.

(** [argument_def_dict]: a dict iterated with [.items()], so an association
    list in insertion order. *)
Definition ArgumentDefDict := list (string * ArgumentDefinition).

Record SourceDefinition := {
  source_type : string;
  source_argument_def_dict : ArgumentDefDict
}.

Record MaterializationDefinition := {
  materialization_name : string;
  materialization_argument_def_dict : ArgumentDefDict
}.

Record OutputDefinition := {
  materializations : list MaterializationDefinition
}.

(** A solid owns its inputs; an input refers back to the solid it depends on
    ([input_def.depends_on], [None] when there is none). *)
Inductive SolidDefinition : Type :=
| Build_SolidDefinition
    (name : string) (inputs : list InputDefinition) (output : OutputDefinition)
with InputDefinition : Type :=
| Build_InputDefinition
    (name : string) (depends_on : option SolidDefinition)
    (sources : list SourceDefinition).

Definition solid_name (s : SolidDefinition) : string :=
  match s with Build_SolidDefinition n _ _ => n end.
Definition solid_inputs (s : SolidDefinition) : list InputDefinition :=
  match s with Build_SolidDefinition _ i _ => i end.
Definition solid_output (s : SolidDefinition) : OutputDefinition :=
  match s with Build_SolidDefinition _ _ o => o end.

Definition input_name (i : InputDefinition) : string :=
  match i with Build_InputDefinition n _ _ => n end.
Definition input_depends_on (i : InputDefinition) : option SolidDefinition :=
  match i with Build_InputDefinition _ d _ => d end.
Definition input_sources (i : InputDefinition) : list SourceDefinition :=
  match i with Build_InputDefinition _ _ s => s end.

(** [pipeline.solid_graph], read only for [topological_solids]. *)
Record SolidGraph := { topological_solids : list SolidDefinition }.

(** [dagster.PipelineDefinition]. [list_command] iterates
    [pipeline.solid_graph.topological_solids], [print_pipeline] iterates
    [pipeline.solids]: two attributes, so two fields. *)
Record PipelineDefinition := {
  pipeline_name : string;
  pipeline_description : option string;
  solids : list SolidDefinition;
  solid_graph : SolidGraph
}.

(** Truth value of a [str]: only [''] is false. *)
Definition str_truthy (s : string) : bool :=
  match s with
  | "" => false
  | _ => true
  end.

(** ['{desc}'.format(desc=pipeline.description)]: [None] prints as its
    [str]. *)
Definition format_opt_str (d : option string) : string :=
  match d with
  | None => "None"
  | Some s => s
  end.

(** ** [format_argument_dict] *)

Definition format_argument_dict (arg_def_dict : ArgumentDefDict) : string :=
  str_join ", "
    (map (fun item : string * ArgumentDefinition =>
            let (name, arg_def) := item in
            name +:+ ": " +:+ type_name (dagster_type arg_def))
         arg_def_dict).

(** ** [print_pipeline] *)

Definition indent : string := "    ".

(** Body of [for source_def in input_def.sources]. *)
Definition print_source (out : Sink) (source_def : SourceDefinition) : Sink :=
  let arg_list := format_argument_dict (source_argument_def_dict source_def) in
  printer out
    (str_mul indent 5 +:+ source_type source_def +:+ "(" +:+ arg_list +:+ ")").

(** Body of [for input_def in solid.inputs]. *)
Definition print_input (out : Sink) (input_def : InputDefinition) : Sink :=
  let out :=
    match input_depends_on input_def with
    | Some dep =>
        printer out
          (str_mul indent 3 +:+ "Name: " +:+ input_name input_def
             +:+ " (depends on " +:+ solid_name dep +:+ ")")
    | None =>
        printer out (str_mul indent 3 +:+ "Name: " +:+ input_name input_def)
    end in
  match input_sources input_def with
  | [] => out
  | _ :: _ =>
      let out := printer out (str_mul indent 4 +:+ "Sources:") in
      fold_left print_source (input_sources input_def) out
  end.

(** Body of [for materialization_def in solid.output.materializations]. *)
Definition print_materialization
    (out : Sink) (materialization_def : MaterializationDefinition) : Sink :=
  let arg_list :=
    format_argument_dict (materialization_argument_def_dict materialization_def) in
  printer out
    (str_mul indent 4 +:+ materialization_name materialization_def
       +:+ "(" +:+ arg_list +:+ ")").

(** Body of [for solid in pipeline.solids]. *)
Definition print_solid (out : Sink) (solid : SolidDefinition) : Sink :=
  let out := printer out (indent +:+ "Solid: " +:+ solid_name solid) in
  let out := printer out (str_mul indent 2 +:+ "Inputs:") in
  let out := fold_left print_input (solid_inputs solid) out in
  let out := printer out (str_mul indent 2 +:+ "Output:") in
  let out := printer out (str_mul indent 3 +:+ "Materializations:") in
  fold_left print_materialization (materializations (solid_output solid)) out.

Definition print_pipeline
    (pipeline : PipelineDefinition) (full : bool) (out : Sink) : Sink :=
  let out :=
    printer out
      ("Pipeline: " +:+ pipeline_name pipeline
         +:+ " Description: " +:+ format_opt_str (pipeline_description pipeline)) in
  if negb full then out
  else fold_left print_solid (solids pipeline) out.

(** ** [format_description] and [list_command] *)

Section Listing.

(** [textwrap.dedent] and [textwrap.TextWrapper(initial_indent,
    subsequent_indent).fill] of the Python standard library. *)
Variable textwrap_dedent : string -> string.
Variable textwrap_fill : string -> string -> string -> string.

Definition format_description (desc : string) : string :=
  let dedented := textwrap_dedent desc in
  let indent := str_mul " " 4 in
  textwrap_fill indent indent dedented.

(** Body of [for pipeline_config in pipeline_configs], on
    [pipeline_config.pipeline]. *)
Definition list_pipeline (out : Sink) (pipeline : PipelineDefinition) : Sink :=
  let out := printer out ("Pipeline: " +:+ pipeline_name pipeline) in
  let out :=
    match pipeline_description pipeline with
    | Some desc =>
        if str_truthy desc then
          let out := printer out "Description:" in
          printer out (format_description desc)
        else out
    | None => out
    end in
  let out := printer out "Solids: (Execution Order)" in
  let out :=
    fold_left (fun out solid => printer out ("    " +:+ solid_name solid))
      (topological_solids (solid_graph pipeline)) out in
  printer out "*************".

(** [list_command], on the pipelines of [config.create_pipelines()]. *)
Definition list_command (pipelines : list PipelineDefinition) (out : Sink) : Sink :=
  fold_left list_pipeline pipelines out.

End Listing.

(** ** Execution results and the execution context *)

(** [DagsterExecutionFailureReason]. The consumer compares [result.reason]
    with two members by [==] in an [if]/[elif] that has no [else]; every
    other value of [result.reason] takes the third way through that
    statement and is kept here as [UNHANDLED_REASON]. *)
Inductive DagsterExecutionFailureReason :=
| USER_CODE_ERROR
| EXPECTATION_FAILURE
| UNHANDLED_REASON (value : string).

Record ExpectationResult := { message : string }.

(** One call [context.error(message, solid=...)]. *)
Record LogEntry := {
  log_message : string;
  log_solid : string
}.

(** How a run of the consumer ends. *)
Inductive Outcome (Exn : Type) :=
| Returned
| Raised (user_exception : Exn)
| ClickExit (code : Z)
| NoActiveClickContext.

Arguments Returned {Exn}.
Arguments Raised {Exn} user_exception.
Arguments ClickExit {Exn} code.
Arguments NoActiveClickContext {Exn}.

Section Execution.

(** Metric values are only formatted ([str]), user exceptions are only
    raised. *)
Context {Value : Type}.
Variable str_value : Value -> string.
Context {Exn : Type}.

(** A recorded metric: the reporter reads [metric_name] and [value]; the
    tags are what the context's queries select on. *)
Record Metric := {
  metric_name : string;
  value : Value;
  context_dict : gmap string string
}.

(** [result.context], as far as the reporter calls it: the two metric
    queries, each returning the metrics in the order the context yields
    them. *)
Record ExecutionContext := {
  metrics_matching_context : gmap string string -> list Metric;
  metrics_covering_context : gmap string string -> list Metric
}.

Record ExecutionResult := {
  success : bool;
  reason : DagsterExecutionFailureReason;
  user_exception : Exn;
  failed_expectation_results : list ExpectationResult;
  context : ExecutionContext;
  solid : SolidDefinition;
  name : string
}.

(** *** [print_metrics_to_console] *)

(** Body of [for metric in ...] at the given indentation width. *)
Definition print_metric (width : nat) (out : Sink) (metric : Metric) : Sink :=
  printer out
    (str_mul " " width +:+ metric_name metric +:+ ": "
       +:+ str_value (value metric)).

(** Body of [for input_def in result.solid.inputs]. *)
Definition print_metrics_for_input
    (result : ExecutionResult) (out : Sink) (input_def : InputDefinition) : Sink :=
  let metrics_for_input :=
    metrics_covering_context (context result)
      (<["input" := input_name input_def]> {["solid" := name result]}) in
  match metrics_for_input with
  | [] => out
  | _ :: _ =>
      let out := printer out ("    Input " +:+ input_name input_def) in
      fold_left (print_metric 8) metrics_for_input out
  end.

(** Body of [for result in results]. *)
Definition print_metrics_of_result (out : Sink) (result : ExecutionResult) : Sink :=
  let context := context result in
  let metrics_of_solid :=
    metrics_matching_context context {["solid" := name result]} in
  let out := printer out ("Metrics for " +:+ name result) in
  let out :=
    fold_left (print_metrics_for_input result) (solid_inputs (solid result)) out in
  fold_left (print_metric 4) metrics_of_solid out.

Definition print_metrics_to_console
    (results : list ExecutionResult) (out : Sink) : Sink :=
  fold_left print_metrics_of_result results out.

(** *** [process_results_for_console] *)

(** What the consumer has done when it stops: how it ended, the results it
    appended, the errors it logged, the list it passed to
    [print_metrics_to_console] (if it got there), the lines that call
    printed, and the part of the iterator it never pulled. *)
Record Run := {
  outcome : Outcome Exn;
  results : list ExecutionResult;
  error_log : list LogEntry;
  reported : option (list ExecutionResult);
  printed : Sink;
  not_pulled : list ExecutionResult
}.

(** [result.context.error(expectation_result.message,
    solid=result.solid.name)]. *)
Definition context_error
    (result : ExecutionResult) (log : list LogEntry)
    (expectation_result : ExpectationResult) : list LogEntry :=
  log ++ [{| log_message := message expectation_result;
             log_solid := solid_name (solid result) |}].

(** [click.get_current_context().exit(code)]: [exit] raises, and so does
    [get_current_context] when no click context is active. *)
Definition click_exit (click_context_active : bool) (code : Z) : Outcome Exn :=
  if click_context_active then ClickExit code else NoActiveClickContext.

(** The [for result in pipeline_iter] loop, from the state reached so far.
    [None] as outcome of the loop means it ran to the end of the
    iterator. *)
Fixpoint consume_results
    (click_context_active : bool) (pipeline_iter : list ExecutionResult)
    (results : list ExecutionResult) (log : list LogEntry)
  : option (Outcome Exn) * list ExecutionResult * list LogEntry
    * list ExecutionResult :=
  match pipeline_iter with
  | [] => (None, results, log, [])
  | result :: rest =>
      if negb (success result) then
        match reason result with
        | USER_CODE_ERROR =>
            (Some (Raised (user_exception result)), results, log, rest)
        | EXPECTATION_FAILURE =>
            let log :=
              fold_left (context_error result)
                (failed_expectation_results result) log in
            (Some (click_exit click_context_active 1%Z), results, log, rest)
        | UNHANDLED_REASON _ =>
            consume_results click_context_active rest (results ++ [result]) log
        end
      else
        consume_results click_context_active rest (results ++ [result]) log
  end.

Definition process_results_for_console
    (click_context_active : bool) (pipeline_iter : list ExecutionResult) : Run :=
  match consume_results click_context_active pipeline_iter [] [] with
  | (Some stopped, results, log, rest) =>
      {| outcome := stopped; results := results; error_log := log;
         reported := None; printed := []; not_pulled := rest |}
  | (None, results, log, rest) =>
      {| outcome := Returned; results := results; error_log := log;
         reported := Some results;
         printed := print_metrics_to_console results []; not_pulled := rest |}
  end.

End Execution.

Arguments Metric : clear implicits.
Arguments ExecutionContext : clear implicits.
Arguments ExecutionResult : clear implicits.
Arguments Run : clear implicits.

(** ** The metric store behind the queries *)

Section MetricStore.

Context {Value : Type}.

(** Modelled from the spec: the class of [result.context] and its
    [metrics_matching_context] / [metrics_covering_context] methods are not
    part of [cli/pipeline.py]. A query matches a metric when its tags and the
    query are equal as mappings, and covers it when every key/value pair of
    the query is present in the tags; a query returns the selected metrics in
    the order of the store. *)
Definition matches (tags query : gmap string string) : bool :=
  bool_decide (tags = query).

(** Modelled from the spec: [covers] holds when every key/value pair of the
    query is present in the tags, which may have further keys. *)
Definition covers (tags query : gmap string string) : bool :=
  bool_decide (query ⊆ tags).

(** Modelled from the spec: a context over a list of recorded metrics, whose
    two queries select by [matches] and by [covers] and keep the order of
    the list. *)
Definition store_context (store : list (Metric Value)) : ExecutionContext Value :=
  {| metrics_matching_context query :=
       List.filter (fun metric => matches (context_dict metric) query) store;
     metrics_covering_context query :=
       List.filter (fun metric => covers (context_dict metric) query) store |}.

End MetricStore.

(** ** The lines of the printers, written out *)

(** Line of a source or of a materialization: [<kind>(<name>: <type>, ...)]
    behind [width] indents. *)
Definition call_line (width : nat) (kind : string) (args : ArgumentDefDict) : string :=
  str_mul indent width +:+ kind +:+ "(" +:+ format_argument_dict args +:+ ")".

Definition input_name_line (input_def : InputDefinition) : string :=
  match input_depends_on input_def with
  | Some dep =>
      "            Name: " +:+ input_name input_def
        +:+ " (depends on " +:+ solid_name dep +:+ ")"
  | None => "            Name: " +:+ input_name input_def
  end.

Definition source_lines (sources : list SourceDefinition) : list string :=
  match sources with
  | [] => []
  | _ :: _ =>
      "                Sources:"
        :: map (fun s => call_line 5 (source_type s) (source_argument_def_dict s))
             sources
  end.

Definition input_lines (input_def : InputDefinition) : list string :=
  input_name_line input_def :: source_lines (input_sources input_def).

Definition materialization_lines (output : OutputDefinition) : list string :=
  map (fun m =>
         call_line 4 (materialization_name m) (materialization_argument_def_dict m))
    (materializations output).

Definition solid_line (solid : SolidDefinition) : string :=
  "    Solid: " +:+ solid_name solid.

Definition solid_lines (solid : SolidDefinition) : list string :=
  [solid_line solid; "        Inputs:"]
    ++ flat_map input_lines (solid_inputs solid)
    ++ ["        Output:"; "            Materializations:"]
    ++ materialization_lines (solid_output solid).

(** The lines of the output that announce a solid. *)
Definition is_solid_line (line : string) : bool :=
  String.prefix "    Solid: " line.

(** How often [header] is printed. *)
Definition count_line (header : string) (out : Sink) : nat :=
  length (List.filter (String.eqb header) out).

(** A result on which the loop of the consumer stops: a failure whose reason
    is one of the two the loop tests for. *)
Definition stops_consumer {Value Exn : Type} (result : ExecutionResult Value Exn) : bool :=
  negb (success result) &&
  match reason result with
  | USER_CODE_ERROR | EXPECTATION_FAILURE => true
  | UNHANDLED_REASON _ => false
  end.

Section Report.

Context {Value : Type}.
Variable str_value : Value -> string.
Context {Exn : Type}.

Definition metric_line (width : nat) (metric : Metric Value) : string :=
  str_mul " " width +:+ metric_name metric +:+ ": " +:+ str_value (value metric).

(** The [Input <name>] block of one input: nothing when the covering query
    returns no metric. *)
Definition input_block
    (result : ExecutionResult Value Exn) (input_def : InputDefinition) : list string :=
  let covered :=
    metrics_covering_context (context result)
      (<["input" := input_name input_def]> {["solid" := name result]}) in
  match covered with
  | [] => []
  | _ :: _ => ("    Input " +:+ input_name input_def) :: map (metric_line 8) covered
  end.

Definition result_report (result : ExecutionResult Value Exn) : list string :=
  ("Metrics for " +:+ name result)
    :: flat_map (input_block result) (solid_inputs (solid result))
    ++ map (metric_line 4)
         (metrics_matching_context (context result) {["solid" := name result]}).

(** The log entries of one failed expectation result each. *)
Definition expectation_errors (result : ExecutionResult Value Exn) : list LogEntry :=
  map (fun e => {| log_message := message e;
                   log_solid := solid_name (solid result) |})
    (failed_expectation_results result).

End Report.

(** ** Sample pipelines *)

Definition no_output : OutputDefinition := {| materializations := [] |}.

Definition path_argument : ArgumentDefDict :=
  [("path", {| dagster_type := {| type_name := "Path" |} |})].

Definition separator_argument : ArgumentDefDict :=
  [("sep", {| dagster_type := {| type_name := "String" |} |})].

(** A solid without inputs, and a solid whose input is fed by it and has a
    source of its own as well. *)
Definition solid_a : SolidDefinition := Build_SolidDefinition "A" [] no_output.

Definition fed_input : InputDefinition :=
  Build_InputDefinition "num" (Some solid_a)
    [{| source_type := "CSV"; source_argument_def_dict := path_argument |}].

Definition solid_b : SolidDefinition :=
  Build_SolidDefinition "B" [fed_input] no_output.

(** A pipeline constructed from [B, A]: [solids] keeps that order, the solid
    graph lists [A] before [B], which depends on it. *)
Definition pipeline_b_a : PipelineDefinition :=
  {| pipeline_name := "p";
     pipeline_description := Some "d";
     solids := [solid_b; solid_a];
     solid_graph := {| topological_solids := [solid_a; solid_b] |} |}.

(** The same two solids in a pipeline constructed from [A, B], without a
    description. *)
Definition pipeline_a_b : PipelineDefinition :=
  {| pipeline_name := "p";
     pipeline_description := None;
     solids := [solid_a; solid_b];
     solid_graph := {| topological_solids := [solid_a; solid_b] |} |}.

(** [textwrap] on a text of one short line without leading blanks: there is
    nothing to dedent and nothing to wrap, the line gets the initial
    indent. *)
Definition dedent_one_line (text : string) : string := text.
Definition fill_one_line (initial_indent subsequent_indent text : string) : string :=
  initial_indent +:+ text.

(** ** Sample results *)

(** The metrics of the example run: [rows] recorded for input [x] of solid
    [A], [time] recorded for solid [A]. In the samples a metric value is
    given by its [str] and a user exception by its name. *)
Definition sample_store : list (Metric string) :=
  [{| metric_name := "rows"; value := "42";
      context_dict := <["input" := "x"]> {["solid" := "A"]} |};
   {| metric_name := "time"; value := "1.2";
      context_dict := {["solid" := "A"]} |}].

Definition solid_with_input_x : SolidDefinition :=
  Build_SolidDefinition "A" [Build_InputDefinition "x" None []] no_output.

Definition succeeded : ExecutionResult string (option string) :=
  {| success := true; reason := UNHANDLED_REASON "None";
     user_exception := None; failed_expectation_results := [];
     context := store_context sample_store;
     solid := solid_with_input_x; name := "A" |}.

Definition failed_expectation : ExecutionResult string (option string) :=
  {| success := false; reason := EXPECTATION_FAILURE;
     user_exception := None;
     failed_expectation_results := [{| message := "no nulls" |}];
     context := store_context []; solid := solid_b; name := "B" |}.

Definition failed_user_code : ExecutionResult string (option string) :=
  {| success := false; reason := USER_CODE_ERROR;
     user_exception := Some "ValueError"; failed_expectation_results := [];
     context := store_context []; solid := solid_b; name := "B" |}.

Definition failed_otherwise : ExecutionResult string (option string) :=
  {| success := false; reason := UNHANDLED_REASON "FRAMEWORK_ERROR";
     user_exception := None; failed_expectation_results := [];
     context := store_context []; solid := solid_b; name := "B" |}.


(** ** [do_execute_command] *)

Section Execute.

Context {Value : Type}.
Variable str_value : Value -> string.
Context {Exn : Type}.

(** What [do_execute_command] gets from the rest of dagster: the document
    that [load_yaml_from_path] reads at a path ([execute_command] only
    accepts the path of a readable file), [dagster.config.construct_environment],
    and the iterator of [execute_pipeline_iterator], given here by the
    results it yields. *)
Context {EnvConfig Environment : Type}.
Variable load_yaml_from_path : string -> EnvConfig.
Variable construct_environment : EnvConfig -> Environment.
Variable execute_pipeline_iterator :
  PipelineDefinition -> Environment -> option (list string) ->
  list (ExecutionResult Value Exn).

(** [[from_solid] if from_solid else None], on an optional [str]. *)
Definition from_solids_argument (from_solid : option string) : option (list string) :=
  match from_solid with
  | Some start => if str_truthy start then Some [start] else None
  | None => None
  end.

Definition do_execute_command
    (click_context_active : bool) (pipeline : PipelineDefinition)
    (env : string) (from_solid : option string) : Run Value Exn :=
  let env_config := load_yaml_from_path env in
  let environment := construct_environment env_config in
  let pipeline_iter :=
    execute_pipeline_iterator pipeline environment
      (from_solids_argument from_solid) in
  process_results_for_console str_value click_context_active pipeline_iter.

End Execute.

(** ** Counting calls and recognising entries *)

(** [printer] calls for one input: its name, and the [Sources:] call with
    one call per source when it has sources. *)
Definition input_printer_calls (input_def : InputDefinition) : nat :=
  match input_sources input_def with
  | [] => 1
  | _ :: _ => 2 + length (input_sources input_def)
  end.

(** [printer] calls for one solid. *)
Definition solid_printer_calls (solid : SolidDefinition) : nat :=
  4 + list_sum (map input_printer_calls (solid_inputs solid))
    + length (materializations (solid_output solid)).

(** [click.echo] calls of [list_command] for one pipeline: the formatted
    description is echoed in one call, however many lines it fills. *)
Definition listing_echo_calls (pipeline : PipelineDefinition) : nat :=
  3 + match pipeline_description pipeline with
      | Some desc => if str_truthy desc then 2 else 0
      | None => 0
      end
    + length (topological_solids (solid_graph pipeline)).

(** The lines of the topology that name an input. *)
Definition is_input_line (line : string) : bool :=
  String.prefix "            Name: " line.

(** The lines of the metrics report that open the report of a result. *)
Definition is_report_header (line : string) : bool :=
  String.prefix "Metrics for " line.

(** An engine for the samples: from the beginning its iterator yields two
    results, from a given solid on it yields one. *)
Definition sample_iterator
    (pipeline : PipelineDefinition) (environment : unit)
    (from_solids : option (list string))
  : list (ExecutionResult string (option string)) :=
  match from_solids with
  | None => [succeeded; succeeded]
  | Some _ => [succeeded]
  end.

(** A result of the sample run whose context holds no metric. *)
Definition succeeded_without_metrics : ExecutionResult string (option string) :=
  {| success := true; reason := UNHANDLED_REASON "None";
     user_exception := None; failed_expectation_results := [];
     context := store_context [];
     solid := solid_with_input_x; name := "A" |}.
(** * Properties *)

(** ** Loops that only print *)

Lemma fold_left_printer {A : Type} (step : Sink -> A -> Sink) (lines : A -> list string) :
  (forall out x, step out x = out ++ lines x) ->
  forall l out, fold_left step l out = out ++ flat_map lines l.
Proof.
  intros Hstep l. induction l as [|x l IH]; intros out; simpl.
  - by rewrite app_nil_r.
  - by rewrite IH, Hstep, <- app_assoc.
Qed.

Lemma fold_left_printer_map {A : Type} (step : Sink -> A -> Sink) (line : A -> string) :
  (forall out x, step out x = out ++ [line x]) ->
  forall l out, fold_left step l out = out ++ map line l.
Proof.
  intros Hstep l. induction l as [|x l IH]; intros out; simpl.
  - by rewrite app_nil_r.
  - by rewrite IH, Hstep, <- app_assoc.
Qed.

Lemma print_source_line out source_def :
  print_source out source_def
  = out ++ [call_line 5 (source_type source_def) (source_argument_def_dict source_def)].
Proof. reflexivity. Qed.

Lemma print_input_lines out input_def :
  print_input out input_def = out ++ input_lines input_def.
Proof.
  unfold print_input, input_lines, input_name_line, source_lines.
  destruct input_def as [n dep srcs]; simpl.
  destruct srcs as [|s srcs].
  - by destruct dep.
  - rewrite (fold_left_printer_map print_source _ print_source_line).
    unfold printer. destruct dep; by rewrite <- !app_assoc.
Qed.

Lemma print_solid_lines out solid :
  print_solid out solid = out ++ solid_lines solid.
Proof.
  unfold print_solid, solid_lines, materialization_lines.
  rewrite (fold_left_printer_map print_materialization
             (fun m => call_line 4 (materialization_name m)
                         (materialization_argument_def_dict m))) by reflexivity.
  rewrite (fold_left_printer print_input _ print_input_lines).
  unfold printer. by rewrite <- !app_assoc.
Qed.

Lemma print_pipeline_full pipeline out :
  print_pipeline pipeline true out
  = out ++ ("Pipeline: " +:+ pipeline_name pipeline +:+ " Description: "
              +:+ format_opt_str (pipeline_description pipeline))
        :: flat_map solid_lines (solids pipeline).
Proof.
  unfold print_pipeline; simpl.
  rewrite (fold_left_printer print_solid _ print_solid_lines).
  unfold printer. by rewrite <- app_assoc.
Qed.

(** ** Which lines of a solid's block pass a test on lines *)

Lemma filter_cons_false {A : Type} (f : A -> bool) x l :
  f x = false -> List.filter f (x :: l) = List.filter f l.
Proof. intros H. simpl. by rewrite H. Qed.

Lemma filter_cons_true {A : Type} (f : A -> bool) x l :
  f x = true -> List.filter f (x :: l) = x :: List.filter f l.
Proof. intros H. simpl. by rewrite H. Qed.

Lemma filter_flat_map_nil {A : Type} (f : string -> bool) (g : A -> list string) l :
  (forall x, List.filter f (g x) = []) -> List.filter f (flat_map g l) = [].
Proof.
  intros Hg. induction l as [|x l IH]; simpl; [done|].
  by rewrite List.filter_app, Hg, IH.
Qed.

Lemma filter_map_nil {A : Type} (f : string -> bool) (g : A -> string) l :
  (forall x, f (g x) = false) -> List.filter f (map g l) = [].
Proof.
  intros Hg. induction l as [|x l IH]; [done|].
  change (map g (x :: l)) with (g x :: map g l).
  by rewrite filter_cons_false.
Qed.

Section BlockFilter.

(** A test on lines that rejects the line of an input's name and every line
    indented by sixteen spaces or more: what is left of a solid's block are
    its first two lines and the two lines after the inputs. *)
Variable test : string -> bool.
Hypothesis test_name : forall rest, test ("            Name: " +:+ rest) = false.
Hypothesis test_deep : forall rest, test ("                " +:+ rest) = false.

Lemma test_input_lines input_def : List.filter test (input_lines input_def) = [].
Proof.
  destruct input_def as [n dep srcs].
  unfold input_lines, input_name_line, source_lines.
  cbn [input_sources input_depends_on input_name].
  rewrite filter_cons_false by (destruct dep; apply test_name).
  destruct srcs as [|s srcs]; [done|]. cbv beta iota.
  rewrite filter_cons_false by exact (test_deep "Sources:").
  apply filter_map_nil. intros x.
  exact (test_deep (indent +:+ source_type x +:+ "("
                      +:+ format_argument_dict (source_argument_def_dict x) +:+ ")")).
Qed.

Lemma test_materialization_lines output :
  List.filter test (materialization_lines output) = [].
Proof.
  apply filter_map_nil. intros m.
  exact (test_deep (materialization_name m +:+ "("
                      +:+ format_argument_dict (materialization_argument_def_dict m)
                      +:+ ")")).
Qed.

Lemma test_solid_lines solid :
  List.filter test (solid_lines solid)
  = List.filter test
      [solid_line solid; "        Inputs:"; "        Output:";
       "            Materializations:"].
Proof.
  unfold solid_lines.
  rewrite !List.filter_app, test_materialization_lines, app_nil_r.
  rewrite (filter_flat_map_nil test input_lines _ test_input_lines).
  by rewrite app_nil_l, <- List.filter_app.
Qed.

End BlockFilter.


Lemma prefix_append (s t : string) : String.prefix s (s +:+ t) = true.
Proof.
  induction s as [|c s IH]; simpl; [by destruct t|].
  by destruct (ascii_dec c c).
Qed.

Lemma is_solid_line_solid_line solid : is_solid_line (solid_line solid) = true.
Proof. apply prefix_append. Qed.

Lemma solid_lines_announce solid :
  List.filter is_solid_line (solid_lines solid) = [solid_line solid].
Proof.
  rewrite (test_solid_lines is_solid_line) by reflexivity.
  by rewrite filter_cons_true by apply is_solid_line_solid_line.
Qed.

(** Each of the three section headers is printed once in a solid's block. *)
Lemma solid_lines_header (header : string) solid :
  In header ["        Inputs:"; "        Output:"; "            Materializations:"] ->
  List.filter (String.eqb header) (solid_lines solid) = [header].
Proof.
  intros [<-|[<-|[<-|[]]]];
    by rewrite (test_solid_lines (String.eqb _)) by reflexivity.
Qed.

Lemma filter_flat_map_one {A : Type} (f : string -> bool)
    (g : A -> list string) (h : A -> string) l :
  (forall x, List.filter f (g x) = [h x]) ->
  List.filter f (flat_map g l) = map h l.
Proof.
  intros Hg. induction l as [|x l IH]; simpl; [done|].
  by rewrite List.filter_app, Hg, IH.
Qed.

Lemma append_empty_r (s : string) : s +:+ "" = s.
Proof.
  induction s as [|c s IH]; [done|].
  change (String c (s +:+ "") = String c s). by rewrite IH.
Qed.

(** ** The topology printer *)

(** C8. In full mode the lines that announce a solid are, in this order and
    one each, those of [pipeline.solids]: the output is the header line
    followed by the block of each solid of [pipeline.solids], in that order,
    so no solid is added, dropped, repeated or moved. *)
Theorem print_pipeline_solid_order (pipeline : PipelineDefinition) :
  (exists header,
     print_pipeline pipeline true []
     = header :: flat_map solid_lines (solids pipeline))
  /\ List.filter is_solid_line (print_pipeline pipeline true [])
     = map (fun solid => "    Solid: " +:+ solid_name solid) (solids pipeline).
Proof.
  rewrite print_pipeline_full. split; [by eexists|].
  rewrite app_nil_l, filter_cons_false by reflexivity.
  apply filter_flat_map_one, solid_lines_announce.
Qed.

(** C10. In the full output every solid of the pipeline contributes each of
    the lines [Inputs:], [Output:] and [Materializations:] once, whatever
    its inputs and materializations are, and a solid that has neither is
    printed as its name followed by these three lines. *)
Theorem section_headers_unconditional :
  (forall pipeline,
     count_line "        Inputs:" (print_pipeline pipeline true [])
       = length (solids pipeline)
     /\ count_line "        Output:" (print_pipeline pipeline true [])
       = length (solids pipeline)
     /\ count_line "            Materializations:" (print_pipeline pipeline true [])
       = length (solids pipeline))
  /\ (forall out name,
        print_solid out
          (Build_SolidDefinition name [] {| materializations := [] |})
        = out ++ ["    Solid: " +:+ name; "        Inputs:";
                  "        Output:"; "            Materializations:"]).
Proof.
  split; [|intros; by rewrite print_solid_lines].
  intros pipeline. unfold count_line. rewrite print_pipeline_full, app_nil_l.
  rewrite !filter_cons_false by reflexivity.
  rewrite !(filter_flat_map_one _ solid_lines (fun _ => _))
    by (intros; apply solid_lines_header; simpl; auto).
  by rewrite !length_map.
Qed.

(** C6, as the code has it. An input is printed as [Name: <name>], followed
    by [(depends on <producer>)] when it has an upstream producer; its
    sources are listed below a [Sources:] line whenever it has sources,
    with or without an upstream producer, each as
    [<source_type>(<name>: <type>, ...)] with the arguments in the order of
    the argument dict. *)
Theorem print_input_sources_listed :
  (forall out name depends_on sources,
     print_input out (Build_InputDefinition name depends_on sources)
     = out
         ++ ["            Name: " +:+ name
               +:+ match depends_on with
                   | Some producer => " (depends on " +:+ solid_name producer +:+ ")"
                   | None => ""
                   end]
         ++ match sources with
            | [] => []
            | _ :: _ =>
                "                Sources:"
                  :: map (fun source_def =>
                            "                    " +:+ source_type source_def +:+ "("
                              +:+ format_argument_dict
                                    (source_argument_def_dict source_def) +:+ ")")
                       sources
            end)
  /\ format_argument_dict [] = ""
  /\ (forall name arg_def,
        format_argument_dict [(name, arg_def)]
        = name +:+ ": " +:+ type_name (dagster_type arg_def))
  /\ (forall name arg_def next rest,
        format_argument_dict ((name, arg_def) :: next :: rest)
        = (name +:+ ": " +:+ type_name (dagster_type arg_def)) +:+ ", "
            +:+ format_argument_dict (next :: rest)).
Proof.
  split; [|split; [reflexivity|split; reflexivity]].
  intros out name depends_on sources. rewrite print_input_lines.
  unfold input_lines, input_name_line, source_lines.
  cbn [input_sources input_depends_on input_name].
  destruct depends_on as [producer|]; [done|].
  by rewrite append_empty_r.
Qed.

(** C6 as stated fails: the sources of [fed_input], which has the upstream
    producer [A], are listed. *)
Lemma sources_listed_despite_producer :
  input_depends_on fed_input = Some solid_a
  /\ print_input [] fed_input
     = ["            Name: num (depends on A)";
        "                Sources:";
        "                    CSV(path: Path)"]
  /\ ~ (forall input_def,
          In "                Sources:" (print_input [] input_def) ->
          input_depends_on input_def = None).
Proof.
  split; [reflexivity|]. split; [reflexivity|].
  intros Hclaim. specialize (Hclaim fed_input). simpl in Hclaim.
  discriminate Hclaim. auto.
Qed.

(** The lines [list_command] prints for one pipeline. *)
Lemma list_pipeline_lines dedent fill out pipeline :
  list_pipeline dedent fill out pipeline
  = out
      ++ ["Pipeline: " +:+ pipeline_name pipeline]
      ++ match pipeline_description pipeline with
         | Some desc =>
             if str_truthy desc
             then ["Description:"; fill "    " "    " (dedent desc)]
             else []
         | None => []
         end
      ++ ["Solids: (Execution Order)"]
      ++ map (fun solid => "    " +:+ solid_name solid)
           (topological_solids (solid_graph pipeline))
      ++ ["*************"].
Proof.
  unfold list_pipeline.
  rewrite (fold_left_printer_map
             (fun out solid => printer out ("    " +:+ solid_name solid))
             (fun solid => "    " +:+ solid_name solid)) by reflexivity.
  unfold printer, format_description.
  destruct (pipeline_description pipeline) as [desc|];
    [destruct (str_truthy desc)|]; by rewrite <- ?app_assoc.
Qed.

(** C7, as the code has it. The header of [print_pipeline] is the one line
    [Pipeline: <name> Description: <description>], with the description as
    it is. It is [list_command] that prints the description on lines of its
    own, below a [Description:] line, dedented and filled by a wrapper whose
    initial and subsequent indents are four spaces, and only when the
    description is not empty. *)
Theorem description_rendering :
  (forall name desc solids solid_graph full out,
     print_pipeline
       {| pipeline_name := name; pipeline_description := Some desc;
          solids := solids; solid_graph := solid_graph |} full out
     = out
         ++ ("Pipeline: " +:+ name +:+ " Description: " +:+ desc)
         :: (if full then flat_map solid_lines solids else []))
  /\ (forall dedent fill name description solids solid_graph,
        exists rest,
          list_command dedent fill
            [{| pipeline_name := name; pipeline_description := description;
                solids := solids; solid_graph := solid_graph |}] []
          = ["Pipeline: " +:+ name]
              ++ match description with
                 | Some desc =>
                     if str_truthy desc
                     then ["Description:"; fill "    " "    " (dedent desc)]
                     else []
                 | None => []
                 end
              ++ "Solids: (Execution Order)" :: rest).
Proof.
  split.
  - intros name desc sols graph full out. destruct full.
    + by rewrite print_pipeline_full.
    + reflexivity.
  - intros dedent fill name description sols graph.
    unfold list_command, fold_left. rewrite list_pipeline_lines.
    by eexists.
Qed.

(** C7 as stated fails: the header of [print_pipeline] carries the
    description unwrapped and unindented, on the line of the name. *)
Lemma header_description_not_indented :
  print_pipeline pipeline_b_a false [] = ["Pipeline: p Description: d"]
  /\ Forall (fun line => String.prefix "    " line = false)
       (print_pipeline pipeline_b_a false []).
Proof. split; [reflexivity|]. by repeat constructor. Qed.

(** C5, as the code has it. For each pipeline [list_command] prints the
    name, the description (if not empty), and between a [Solids: (Execution
    Order)] line and a line of stars the names of
    [pipeline.solid_graph.topological_solids] in that order, whereas the
    full output of [print_pipeline] follows [pipeline.solids]; when the two
    list the solids in the same order, both outputs name the solids in the
    same order. *)
Theorem list_command_solid_order dedent fill (pipeline : PipelineDefinition) :
  list_command dedent fill [pipeline] []
  = ["Pipeline: " +:+ pipeline_name pipeline]
      ++ match pipeline_description pipeline with
         | Some desc =>
             if str_truthy desc
             then ["Description:"; fill "    " "    " (dedent desc)]
             else []
         | None => []
         end
      ++ ["Solids: (Execution Order)"]
      ++ map (fun solid => "    " +:+ solid_name solid)
           (topological_solids (solid_graph pipeline))
      ++ ["*************"]
  /\ (topological_solids (solid_graph pipeline) = solids pipeline ->
      exists before,
        list_command dedent fill [pipeline] []
        = before
            ++ map (fun name => "    " +:+ name)
                 (map solid_name (solids pipeline))
            ++ ["*************"]
        /\ List.filter is_solid_line (print_pipeline pipeline true [])
           = map (fun name => "    Solid: " +:+ name)
               (map solid_name (solids pipeline))).
Proof.
  unfold list_command, fold_left. rewrite list_pipeline_lines, app_nil_l.
  split; [done|]. intros ->.
  set (description_lines :=
         match pipeline_description pipeline with
         | Some desc =>
             if str_truthy desc
             then ["Description:"; fill "    " "    " (dedent desc)]
             else []
         | None => []
         end).
  exists (["Pipeline: " +:+ pipeline_name pipeline]
            ++ description_lines ++ ["Solids: (Execution Order)"]).
  split.
  - rewrite map_map. by rewrite <- !app_assoc.
  - rewrite print_pipeline_full, app_nil_l, filter_cons_false by reflexivity.
    rewrite map_map. apply filter_flat_map_one, solid_lines_announce.
Qed.

(** The claim on a pipeline whose two lists of solids agree. *)
Lemma list_command_solid_order_witness :
  topological_solids (solid_graph pipeline_a_b) = solids pipeline_a_b
  /\ List.filter is_solid_line (print_pipeline pipeline_a_b true [])
     = ["    Solid: A"; "    Solid: B"].
Proof.
  split; [reflexivity|].
  destruct (list_command_solid_order dedent_one_line fill_one_line pipeline_a_b)
    as [_ Hsame].
  destruct (Hsame eq_refl) as [before [_ Hfull]]. exact Hfull.
Defined.

(** C5 as stated fails: [list_command] also prints the description, and for
    a pipeline constructed from [B, A], where [B] depends on [A], it names
    [A] before [B] while the full output of [print_pipeline] has [B]
    before [A]. *)
Lemma list_command_differs_from_full :
  list_command dedent_one_line fill_one_line [pipeline_b_a] []
  = ["Pipeline: p"; "Description:"; "    d"; "Solids: (Execution Order)";
     "    A"; "    B"; "*************"]
  /\ List.filter is_solid_line (print_pipeline pipeline_b_a true [])
     = ["    Solid: B"; "    Solid: A"].
Proof. split; reflexivity. Qed.

(** ** The metrics report and the consumer *)

Section ExecutionFacts.

Context {Value : Type}.
Variable str_value : Value -> string.
Context {Exn : Type}.

Lemma print_metric_line width out (metric : Metric Value) :
  print_metric str_value width out metric
  = out ++ [metric_line str_value width metric].
Proof. reflexivity. Qed.

Lemma print_metrics_for_input_block (result : ExecutionResult Value Exn) out input_def :
  print_metrics_for_input str_value result out input_def
  = out ++ input_block str_value result input_def.
Proof.
  unfold print_metrics_for_input, input_block.
  destruct (metrics_covering_context _ _) as [|metric covered];
    [by rewrite app_nil_r|].
  rewrite (fold_left_printer_map _ _ (print_metric_line 8)).
  unfold printer. by rewrite <- app_assoc.
Qed.

Lemma print_metrics_of_result_report out (result : ExecutionResult Value Exn) :
  print_metrics_of_result str_value out result
  = out ++ result_report str_value result.
Proof.
  unfold print_metrics_of_result, result_report.
  rewrite (fold_left_printer_map _ _ (print_metric_line 4)).
  rewrite (fold_left_printer _ _ (print_metrics_for_input_block result)).
  unfold printer. by rewrite <- !app_assoc.
Qed.

Lemma print_metrics_to_console_lines (results : list (ExecutionResult Value Exn)) out :
  print_metrics_to_console str_value results out
  = out ++ flat_map (result_report str_value) results.
Proof. apply fold_left_printer, print_metrics_of_result_report. Qed.

(** A result on which the loop does not stop is appended, and the loop goes
    on with the rest of the iterator. *)
Lemma consume_results_step active (result : ExecutionResult Value Exn) rest results log :
  stops_consumer result = false ->
  consume_results active (result :: rest) results log
  = consume_results active rest (results ++ [result]) log.
Proof.
  unfold stops_consumer. simpl.
  destruct (success result); [done|]. by destruct (reason result).
Qed.

Lemma consume_results_app active (before rest results : list (ExecutionResult Value Exn)) log :
  Forall (fun result => stops_consumer result = false) before ->
  consume_results active (before ++ rest) results log
  = consume_results active rest (results ++ before) log.
Proof.
  intros Hbefore. revert results.
  induction Hbefore as [|result before Hresult _ IH]; intros results.
  - by rewrite app_nil_r.
  - rewrite <- app_comm_cons, consume_results_step by done.
    by rewrite IH, <- app_assoc.
Qed.

Lemma success_not_stopping (results : list (ExecutionResult Value Exn)) :
  Forall (fun result => success result = true) results ->
  Forall (fun result => stops_consumer result = false) results.
Proof.
  intros Hall. eapply Forall_impl; [exact Hall|]. intros result Hsuccess.
  unfold stops_consumer. by rewrite Hsuccess.
Qed.

Lemma context_errors_logged (result : ExecutionResult Value Exn) log :
  fold_left (context_error result) (failed_expectation_results result) log
  = log ++ expectation_errors result.
Proof.
  unfold expectation_errors. revert log.
  induction (failed_expectation_results result) as [|e l IH]; intros log; simpl.
  - by rewrite app_nil_r.
  - rewrite IH. unfold context_error. by rewrite <- app_assoc.
Qed.

End ExecutionFacts.

Section ExecutionClaims.

Context {Value : Type}.
Variable str_value : Value -> string.
Context {Exn : Type}.

(** C9. For every result the report is, in this order: the line
    [Metrics for <name>]; for each input of the result's solid, in the order
    of [solid.inputs], the line [Input <input>] followed by one line
    [<metric_name>: <value>] per metric of the covering query for that solid
    and input, in the order the query returns them, and nothing for an input
    whose query returns no metric; then one line per metric of the matching
    query for the solid, four spaces less indented. The report of a list of
    results is the reports of its results, one after the other. *)
Theorem print_metrics_to_console_report :
  (forall (result : ExecutionResult Value Exn) out,
     print_metrics_to_console str_value [result] out
     = out
         ++ ["Metrics for " +:+ name result]
         ++ flat_map
              (fun input_def =>
                 match
                   metrics_covering_context (context result)
                     (<["input" := input_name input_def]> {["solid" := name result]})
                 with
                 | [] => []
                 | metric :: metrics =>
                     ("    Input " +:+ input_name input_def)
                       :: map (fun metric =>
                                 "        " +:+ metric_name metric +:+ ": "
                                   +:+ str_value (value metric))
                            (metric :: metrics)
                 end)
              (solid_inputs (solid result))
         ++ map (fun metric =>
                   "    " +:+ metric_name metric +:+ ": "
                     +:+ str_value (value metric))
              (metrics_matching_context (context result)
                 {["solid" := name result]}))
  /\ (forall (results : list (ExecutionResult Value Exn)) out,
        print_metrics_to_console str_value results out
        = out
            ++ flat_map
                 (fun result => print_metrics_to_console str_value [result] [])
                 results).
Proof.
  split.
  - intros result out. rewrite print_metrics_to_console_lines.
    unfold flat_map at 1. rewrite app_nil_r. unfold result_report.
    do 3 f_equal. apply flat_map_ext. intros input_def.
    unfold input_block. by destruct (metrics_covering_context _ _).
  - intros results out. rewrite print_metrics_to_console_lines.
    f_equal. apply flat_map_ext. intros result.
    rewrite print_metrics_to_console_lines. simpl. by rewrite app_nil_r.
Qed.

(** C4. On an iterator of successful results the consumer runs to the end
    of the iterator; the results it has appended are the results of the
    iterator in their order, and that list is what it passes to
    [print_metrics_to_console]. *)
Theorem successes_reported active (pipeline_iter : list (ExecutionResult Value Exn)) :
  Forall (fun result => success result = true) pipeline_iter ->
  process_results_for_console str_value active pipeline_iter
  = {| outcome := Returned;
       results := pipeline_iter;
       error_log := [];
       reported := Some pipeline_iter;
       printed := print_metrics_to_console str_value pipeline_iter [];
       not_pulled := [] |}.
Proof.
  intros Hall%success_not_stopping. unfold process_results_for_console.
  rewrite <- (app_nil_r pipeline_iter) at 1.
  by rewrite consume_results_app.
Qed.

(** C1, as the code has it. When the first [k] results are successes and the
    result at position [k] is an expectation failure, the consumer logs one
    error per failed expectation result of that result, in their order and
    tagged with the name of its solid, and then leaves through
    [click_context.exit(1)]: the exit status is 1, the failed result is not
    appended (the [k] successes are all that was appended), nothing is
    passed to [print_metrics_to_console] and nothing is printed. *)
Theorem expectation_failure_exits
    active (pipeline_iter : list (ExecutionResult Value Exn)) k failed :
  pipeline_iter !! k = Some failed ->
  Forall (fun result => success result = true) (take k pipeline_iter) ->
  success failed = false ->
  reason failed = EXPECTATION_FAILURE ->
  process_results_for_console str_value active pipeline_iter
  = {| outcome := if active then ClickExit 1%Z else NoActiveClickContext;
       results := take k pipeline_iter;
       error_log :=
         map (fun expectation_result =>
                {| log_message := message expectation_result;
                   log_solid := solid_name (solid failed) |})
           (failed_expectation_results failed);
       reported := None;
       printed := [];
       not_pulled := drop (S k) pipeline_iter |}
  /\ length (take k pipeline_iter) = k.
Proof.
  intros Hk Hbefore%success_not_stopping Hfailed Hreason. split.
  - unfold process_results_for_console.
    rewrite <- (take_drop_middle _ _ _ Hk) at 1.
    rewrite consume_results_app by done. simpl.
    by rewrite Hfailed, Hreason, context_errors_logged.
  - apply length_take_le. apply lookup_lt_Some in Hk. lia.
Qed.

(** C3, as the code has it. When the result at position [k] is a user code
    error and the loop does not stop on an earlier result, the consumer
    raises the user exception of that result: the result is not appended,
    nothing is passed to [print_metrics_to_console], nothing is printed or
    logged, and the results after position [k] are never pulled. *)
Theorem user_code_error_raised
    active (pipeline_iter : list (ExecutionResult Value Exn)) k failed :
  pipeline_iter !! k = Some failed ->
  Forall (fun result => stops_consumer result = false) (take k pipeline_iter) ->
  success failed = false ->
  reason failed = USER_CODE_ERROR ->
  process_results_for_console str_value active pipeline_iter
  = {| outcome := Raised (user_exception failed);
       results := take k pipeline_iter;
       error_log := [];
       reported := None;
       printed := [];
       not_pulled := drop (S k) pipeline_iter |}.
Proof.
  intros Hk Hbefore Hfailed Hreason. unfold process_results_for_console.
  rewrite <- (take_drop_middle _ _ _ Hk) at 1.
  rewrite consume_results_app by done. simpl.
  by rewrite Hfailed, Hreason.
Qed.

End ExecutionClaims.

(** ** The claims on sample runs *)

(** The example of the specification: [rows] is reported below [Input x],
    [time] after it at the level of the solid. *)
Example report_of_sample_store :
  print_metrics_to_console (fun v => v) [succeeded] []
  = ["Metrics for A"; "    Input x"; "        rows: 42"; "    time: 1.2"].
Proof. vm_compute. reflexivity. Qed.

Lemma successes_reported_witness :
  Forall (fun result : ExecutionResult string (option string) => success result = true)
    [succeeded; succeeded]
  /\ reported
       (process_results_for_console (fun v => v) true [succeeded; succeeded])
     = Some [succeeded; succeeded].
Proof.
  assert (Hall : Forall (fun result : ExecutionResult string (option string) => success result = true)
                   [succeeded; succeeded]) by (repeat constructor).
  split; [exact Hall|].
  by rewrite (successes_reported (fun v => v) true _ Hall).
Defined.

Lemma expectation_failure_exits_witness :
  [succeeded; failed_expectation] !! 1 = Some failed_expectation
  /\ outcome
       (process_results_for_console (fun v => v) true
          [succeeded; failed_expectation])
     = ClickExit 1%Z.
Proof.
  split; [reflexivity|].
  destruct (expectation_failure_exits (fun v => v) true
              [succeeded; failed_expectation] 1 failed_expectation)
    as [Hrun _]; [reflexivity|by repeat constructor|reflexivity|reflexivity|].
  by rewrite Hrun.
Defined.

Lemma user_code_error_raised_witness :
  [succeeded; failed_user_code; succeeded] !! 1 = Some failed_user_code
  /\ process_results_for_console (fun v => v) true
       [succeeded; failed_user_code; succeeded]
     = {| outcome := Raised (Some "ValueError");
          results := [succeeded];
          error_log := [];
          reported := None;
          printed := [];
          not_pulled := [succeeded] |}.
Proof.
  split; [reflexivity|].
  by rewrite (user_code_error_raised (fun v => v) true
                [succeeded; failed_user_code; succeeded] 1 failed_user_code)
    by (reflexivity || by repeat constructor).
Defined.

(** C1 as stated fails: after one success and an expectation failure the
    consumer has appended one result, not two, and has passed nothing to
    [print_metrics_to_console], although the error is logged and the exit
    status is 1. *)
Lemma expectation_failure_not_reported :
  process_results_for_console (fun v => v) true [succeeded; failed_expectation]
  = {| outcome := ClickExit 1%Z;
       results := [succeeded];
       error_log := [{| log_message := "no nulls"; log_solid := "B" |}];
       reported := None;
       printed := [];
       not_pulled := [] |}
  /\ length
       (results
          (process_results_for_console (fun v => v) true
             [succeeded; failed_expectation]))
     <> 2
  /\ print_metrics_to_console (fun v => v) [succeeded; failed_expectation] []
     <> [].
Proof. split; [reflexivity|]. split; [by vm_compute|by vm_compute]. Qed.

(** C2. The consumer should treat a failed result with any other reason as
    fatal. It does not: on a failed result with the reason
    [FRAMEWORK_ERROR], followed by a success, it appends the failed result,
    goes on to the next result, returns normally and reports both, while it
    leaves the loop on each of the two reasons it tests for. *)
Lemma unhandled_reason_ignored :
  success failed_otherwise = false
  /\ reason failed_otherwise <> USER_CODE_ERROR
  /\ reason failed_otherwise <> EXPECTATION_FAILURE
  /\ process_results_for_console (fun v => v) true [failed_otherwise; succeeded]
     = {| outcome := Returned;
          results := [failed_otherwise; succeeded];
          error_log := [];
          reported := Some [failed_otherwise; succeeded];
          printed :=
            ["Metrics for B"; "Metrics for A"; "    Input x";
             "        rows: 42"; "    time: 1.2"];
          not_pulled := [] |}.
Proof.
  split; [reflexivity|]. split; [discriminate|]. split; [discriminate|].
  change (process_results_for_console (fun v => v) true
            [failed_otherwise; succeeded])
    with {| outcome := @Returned (option string);
            results := [failed_otherwise; succeeded];
            error_log := [];
            reported := Some [failed_otherwise; succeeded];
            printed :=
              print_metrics_to_console (fun v => v)
                [failed_otherwise; succeeded] [];
            not_pulled := [] |}.
  reflexivity.
Qed.

(** C3 as stated fails: the user code error at position 1 is never reached
    when the result at position 0 is an expectation failure; the consumer
    logs and exits there and raises nothing. *)
Lemma user_code_error_not_reached :
  [failed_expectation; failed_user_code] !! 1 = Some failed_user_code
  /\ process_results_for_console (fun v => v) true
       [failed_expectation; failed_user_code]
     = {| outcome := ClickExit 1%Z;
          results := [];
          error_log := [{| log_message := "no nulls"; log_solid := "B" |}];
          reported := None;
          printed := [];
          not_pulled := [failed_user_code] |}
  /\ outcome
       (process_results_for_console (fun v => v) true
          [failed_expectation; failed_user_code])
     <> Raised (user_exception failed_user_code).
Proof. split; [reflexivity|]. split; [reflexivity|discriminate]. Qed.

(** * Further properties *)

(** ** List helpers *)

Lemma filter_flat_map {A : Type} (f : string -> bool)
    (g h : A -> list string) l :
  (forall x, List.filter f (g x) = h x) ->
  List.filter f (flat_map g l) = flat_map h l.
Proof.
  intros Hg. induction l as [|x l IH]; simpl; [done|].
  by rewrite List.filter_app, Hg, IH.
Qed.

Lemma filter_map_all {A : Type} (f : string -> bool) (g : A -> string) l :
  (forall x, f (g x) = true) -> List.filter f (map g l) = map g l.
Proof.
  intros Hg. induction l as [|x l IH]; [done|].
  change (map g (x :: l)) with (g x :: map g l).
  by rewrite filter_cons_true, IH.
Qed.

Lemma length_flat_map_sum {A : Type} (g : A -> list string) l :
  length (flat_map g l) = list_sum (map (fun x => length (g x)) l).
Proof.
  induction l as [|x l IH]; simpl; [done|]. by rewrite length_app, IH.
Qed.

Lemma Forall_flat_map_lines {A : Type} (P : string -> Prop)
    (g : A -> list string) l :
  (forall x, Forall P (g x)) -> Forall P (flat_map g l).
Proof.
  intros Hg. induction l as [|x l IH]; simpl; [constructor|].
  apply Forall_app. by split.
Qed.

Lemma Forall_map_lines {A : Type} (P : string -> Prop) (g : A -> string) l :
  (forall x, P (g x)) -> Forall P (map g l).
Proof.
  intros Hg. induction l as [|x l IH]; simpl; by constructor.
Qed.

(** ** More on the topology printer *)

(** X1. Without [full], [print_pipeline] calls [printer] once, with the
    header; with [full] it makes that call and then the calls for the
    solids, so the strings it prints are the same in both modes exactly
    when the pipeline has no solids. *)
Theorem print_pipeline_summary_prefix pipeline :
  length (print_pipeline pipeline false []) = 1
  /\ (exists blocks,
        print_pipeline pipeline true [] = print_pipeline pipeline false [] ++ blocks)
  /\ (print_pipeline pipeline true [] = print_pipeline pipeline false []
      <-> solids pipeline = []).
Proof.
  rewrite print_pipeline_full.
  split; [reflexivity|]. split; [by eexists|].
  unfold print_pipeline, printer; simpl. split.
  - intros Heq. injection Heq as Hblocks.
    destruct (solids pipeline) as [|solid rest]; [done|].
    discriminate Hblocks.
  - by intros ->.
Qed.

Lemma length_input_lines input_def :
  length (input_lines input_def) = input_printer_calls input_def.
Proof.
  unfold input_lines, source_lines, input_printer_calls.
  destruct (input_sources input_def) as [|s srcs] eqn:Hsources; [done|].
  simpl. by rewrite length_map.
Qed.

Lemma length_solid_lines solid :
  length (solid_lines solid) = solid_printer_calls solid.
Proof.
  unfold solid_lines, solid_printer_calls, materialization_lines.
  rewrite !length_app, length_map, length_flat_map_sum. simpl.
  rewrite (map_ext _ _ length_input_lines). lia.
Qed.

(** X2. With [full], [print_pipeline] calls [printer] once for the header
    and, for each solid, four times, once per input, once more for
    [Sources:] and once per source for every input that has sources, and
    once per materialization. *)
Theorem print_pipeline_call_count pipeline :
  length (print_pipeline pipeline true [])
  = 1 + list_sum (map solid_printer_calls (solids pipeline)).
Proof.
  rewrite print_pipeline_full, app_nil_l. simpl.
  rewrite length_flat_map_sum.
  by rewrite (map_ext _ _ length_solid_lines).
Qed.

Lemma is_input_line_name input_def :
  is_input_line (input_name_line input_def) = true.
Proof.
  unfold input_name_line. destruct (input_depends_on input_def);
    apply prefix_append.
Qed.

Lemma input_lines_names input_def :
  List.filter is_input_line (input_lines input_def) = [input_name_line input_def].
Proof.
  unfold input_lines.
  rewrite filter_cons_true by apply is_input_line_name. f_equal.
  unfold source_lines. destruct (input_sources input_def) as [|s srcs]; [done|].
  rewrite filter_cons_false by reflexivity.
  apply filter_map_nil. reflexivity.
Qed.

Lemma solid_lines_names solid :
  List.filter is_input_line (solid_lines solid)
  = map input_name_line (solid_inputs solid).
Proof.
  unfold solid_lines, materialization_lines.
  rewrite !List.filter_app.
  rewrite (filter_flat_map_one _ _ _ _ input_lines_names).
  rewrite (filter_map_nil is_input_line) by reflexivity.
  rewrite !filter_cons_false by reflexivity.
  simpl. by rewrite app_nil_r.
Qed.

(** X3. In the full output the [Name:] lines are those of the inputs of the
    solids of [pipeline.solids], solid by solid and within a solid in the
    order of [solid.inputs], one line per input. *)
Theorem print_pipeline_input_order pipeline :
  List.filter is_input_line (print_pipeline pipeline true [])
  = flat_map
      (fun solid =>
         map (fun input_def =>
                "            Name: " +:+ input_name input_def
                  +:+ match input_depends_on input_def with
                      | Some producer =>
                          " (depends on " +:+ solid_name producer +:+ ")"
                      | None => ""
                      end)
           (solid_inputs solid))
      (solids pipeline).
Proof.
  rewrite print_pipeline_full, app_nil_l.
  rewrite filter_cons_false by reflexivity.
  apply filter_flat_map. intros solid. rewrite solid_lines_names.
  apply map_ext. intros input_def. unfold input_name_line.
  destruct (input_depends_on input_def); [done|]. by rewrite append_empty_r.
Qed.

(** X4. With [full], the first string [print_pipeline] passes to [printer]
    starts with [Pipeline: ], and every string it passes to [printer] after
    that one starts with four spaces. *)
Theorem print_pipeline_header_unindented pipeline :
  exists header blocks,
    print_pipeline pipeline true [] = header :: blocks
    /\ String.prefix "Pipeline: " header = true
    /\ Forall (fun line => String.prefix "    " line = true) blocks.
Proof.
  rewrite print_pipeline_full, app_nil_l. eexists _, _.
  split; [reflexivity|]. split; [apply prefix_append|].
  apply Forall_flat_map_lines. intros solid. unfold solid_lines.
  repeat (apply Forall_app; split).
  - by repeat constructor.
  - apply Forall_flat_map_lines. intros input_def.
    unfold input_lines, input_name_line, source_lines. constructor.
    + by destruct (input_depends_on input_def).
    + destruct (input_sources input_def); [constructor|].
      constructor; [done|]. by apply Forall_map_lines.
  - by repeat constructor.
  - by apply Forall_map_lines.
Qed.

Lemma format_argument_dict_cons item next rest :
  format_argument_dict (item :: next :: rest)
  = format_argument_dict [item] +:+ ", " +:+ format_argument_dict (next :: rest).
Proof. reflexivity. Qed.

Lemma string_app_assoc (s t u : string) : (s +:+ t) +:+ u = s +:+ t +:+ u.
Proof.
  induction s as [|c s IH]; [done|].
  change (String c ((s +:+ t) +:+ u) = String c (s +:+ t +:+ u)).
  by rewrite IH.
Qed.

Lemma format_argument_dict_concat (first second : ArgumentDefDict) :
  first <> [] -> second <> [] ->
  format_argument_dict (first ++ second)
  = format_argument_dict first +:+ ", " +:+ format_argument_dict second.
Proof.
  intros Hfirst Hsecond. induction first as [|item first IH]; [done|].
  destruct first as [|next first].
  - destruct second as [|item' second]; [done|].
    apply format_argument_dict_cons.
  - rewrite (format_argument_dict_cons item next first).
    transitivity (format_argument_dict [item] +:+ ", "
                    +:+ format_argument_dict ((next :: first) ++ second));
      [reflexivity|].
    rewrite IH by done. by rewrite !string_app_assoc.
Qed.

(** X5. For an argument dict whose items are those of a first group followed
    by those of a second group, both not empty and with keys that are all
    different, the formatted arguments are those of the first group, a
    comma and a space, and those of the second group. *)
Theorem format_argument_dict_app (first second : ArgumentDefDict) :
  List.NoDup (map fst (first ++ second)) ->
  first <> [] -> second <> [] ->
  format_argument_dict (first ++ second)
  = format_argument_dict first +:+ ", " +:+ format_argument_dict second.
Proof. intros _. apply format_argument_dict_concat. Qed.

Lemma format_argument_dict_app_witness :
  List.NoDup (map fst (path_argument ++ separator_argument))
  /\ format_argument_dict (path_argument ++ separator_argument)
     = "path: Path, sep: String".
Proof.
  assert (Hkeys : List.NoDup (map fst (path_argument ++ separator_argument))).
  { constructor; [|constructor; [intros []|constructor]].
    intros [Hsame|[]]. discriminate Hsame. }
  split; [exact Hkeys|].
  by rewrite (format_argument_dict_app path_argument separator_argument Hkeys).
Defined.

(** ** More on [list_command] *)

Lemma list_pipeline_appends dedent fill out pipeline :
  list_pipeline dedent fill out pipeline
  = out ++ list_pipeline dedent fill [] pipeline.
Proof. by rewrite !list_pipeline_lines. Qed.

Lemma list_command_lines dedent fill pipelines out :
  list_command dedent fill pipelines out
  = out ++ flat_map (list_pipeline dedent fill []) pipelines.
Proof.
  apply fold_left_printer. intros. apply list_pipeline_appends.
Qed.

Lemma str_truthy_nonempty (s : string) : str_truthy s = true <-> s <> "".
Proof. by destruct s. Qed.

(** X6. Listing several pipelines echoes what listing each pipeline alone
    echoes, one pipeline after the other in their order; what is echoed for
    a pipeline does not depend on the pipelines before it. For each
    pipeline [click.echo] is called three times, once per solid of its
    solid graph, and twice more when it has a description that is not
    empty. *)
Theorem list_command_per_pipeline dedent fill pipelines :
  list_command dedent fill pipelines []
  = flat_map (fun pipeline => list_command dedent fill [pipeline] []) pipelines
  /\ length (list_command dedent fill pipelines [])
     = list_sum (map listing_echo_calls pipelines).
Proof.
  rewrite list_command_lines, app_nil_l. split; [done|].
  rewrite length_flat_map_sum. f_equal. apply map_ext. intros pipeline.
  rewrite list_pipeline_lines, app_nil_l. unfold listing_echo_calls.
  rewrite !length_app, length_map. simpl.
  destruct (pipeline_description pipeline) as [desc|];
    [destruct (str_truthy desc)|]; simpl; lia.
Qed.

(** X7. [list_command] prints the [Description:] line of a pipeline exactly
    when the pipeline has a description and it is not the empty string. *)
Theorem list_command_description_iff dedent fill pipeline :
  In "Description:" (list_command dedent fill [pipeline] [])
  <-> exists desc, pipeline_description pipeline = Some desc /\ desc <> "".
Proof.
  unfold list_command, fold_left. rewrite list_pipeline_lines, app_nil_l.
  split.
  - intros Hin. apply in_app_or in Hin as [Hin|Hin].
    { destruct Hin as [Hname|[]]. cbv in Hname. discriminate Hname. }
    apply in_app_or in Hin as [Hin|Hin].
    { destruct (pipeline_description pipeline) as [desc|]; [|destruct Hin].
      exists desc. split; [done|]. apply str_truthy_nonempty.
      by destruct (str_truthy desc). }
    apply in_app_or in Hin as [Hin|Hin].
    { destruct Hin as [Hlabel|[]]. discriminate Hlabel. }
    apply in_app_or in Hin as [Hin|Hin].
    { apply in_map_iff in Hin as [solid [Hline _]].
      cbv in Hline. discriminate Hline. }
    destruct Hin as [Hstars|[]]. discriminate Hstars.
  - intros [desc [-> Hdesc%str_truthy_nonempty]]. rewrite Hdesc.
    apply in_or_app. right. apply in_or_app. left. by left.
Qed.

Lemma list_command_description_iff_witness :
  In "Description:"
    (list_command dedent_one_line fill_one_line [pipeline_b_a] []).
Proof.
  apply (list_command_description_iff dedent_one_line fill_one_line pipeline_b_a).
  exists "d". split; [reflexivity|discriminate].
Defined.

(** ** More on the consumer *)

Section ConsumerFacts.

Context {Value : Type}.
Variable str_value : Value -> string.
Context {Exn : Type}.

(** How the loop ends on a result it stops on. *)
Lemma consume_results_stop active (stop : ExecutionResult Value Exn) rest results log :
  stops_consumer stop = true ->
  consume_results active (stop :: rest) results log
  = (Some (match reason stop with
           | USER_CODE_ERROR => Raised (user_exception stop)
           | _ => click_exit active 1%Z
           end),
     results,
     match reason stop with
     | EXPECTATION_FAILURE => log ++ expectation_errors stop
     | _ => log
     end,
     rest).
Proof.
  unfold stops_consumer. simpl. destruct (success stop); [done|].
  destruct (reason stop); simpl; [done| |done].
  intros _. by rewrite context_errors_logged.
Qed.

(** Every iterator either has no result the loop stops on or splits at the
    first one. *)
Lemma first_stop (pipeline_iter : list (ExecutionResult Value Exn)) :
  Forall (fun result => stops_consumer result = false) pipeline_iter
  \/ exists before stop after,
       pipeline_iter = before ++ stop :: after
       /\ Forall (fun result => stops_consumer result = false) before
       /\ stops_consumer stop = true.
Proof.
  induction pipeline_iter as [|result rest IH]; [by left|].
  destruct (stops_consumer result) eqn:Hresult.
  - right. exists [], result, rest. by repeat split.
  - destruct IH as [Hrest|(before & stop & after & -> & Hbefore & Hstop)].
    + left. by constructor.
    + right. exists (result :: before), stop, after.
      split; [done|]. split; [by constructor|done].
Qed.

Lemma process_results_completed active (pipeline_iter : list (ExecutionResult Value Exn)) :
  Forall (fun result => stops_consumer result = false) pipeline_iter ->
  process_results_for_console str_value active pipeline_iter
  = {| outcome := Returned;
       results := pipeline_iter;
       error_log := [];
       reported := Some pipeline_iter;
       printed := print_metrics_to_console str_value pipeline_iter [];
       not_pulled := [] |}.
Proof.
  intros Hall. unfold process_results_for_console.
  rewrite <- (app_nil_r pipeline_iter) at 1.
  by rewrite consume_results_app.
Qed.

Lemma process_results_stopped
    active (before : list (ExecutionResult Value Exn)) stop after :
  Forall (fun result => stops_consumer result = false) before ->
  stops_consumer stop = true ->
  process_results_for_console str_value active (before ++ stop :: after)
  = {| outcome := match reason stop with
                  | USER_CODE_ERROR => Raised (user_exception stop)
                  | _ => click_exit active 1%Z
                  end;
       results := before;
       error_log := match reason stop with
                    | EXPECTATION_FAILURE => expectation_errors stop
                    | _ => []
                    end;
       reported := None;
       printed := [];
       not_pulled := after |}.
Proof.
  intros Hbefore Hstop. unfold process_results_for_console.
  rewrite consume_results_app, consume_results_stop by done.
  by destruct (reason stop).
Qed.

(** X8. Whatever the iterator yields, the consumer either finds no result
    to stop on, appends every result and passes them all to
    [print_metrics_to_console]; or it stops on the first failed result whose
    reason is a user code error or an expectation failure, and then the
    results it has appended are exactly the results before that one, in
    their order, the results after it are never pulled, and nothing is
    reported or printed. *)
Theorem process_results_prefix active (pipeline_iter : list (ExecutionResult Value Exn)) :
  (Forall (fun result => stops_consumer result = false) pipeline_iter
   /\ outcome (process_results_for_console str_value active pipeline_iter) = Returned
   /\ results (process_results_for_console str_value active pipeline_iter)
      = pipeline_iter
   /\ reported (process_results_for_console str_value active pipeline_iter)
      = Some pipeline_iter)
  \/ (exists stop,
        pipeline_iter
        = results (process_results_for_console str_value active pipeline_iter)
            ++ stop
            :: not_pulled (process_results_for_console str_value active pipeline_iter)
        /\ stops_consumer stop = true
        /\ Forall (fun result => stops_consumer result = false)
             (results (process_results_for_console str_value active pipeline_iter))
        /\ outcome (process_results_for_console str_value active pipeline_iter)
           <> Returned
        /\ reported (process_results_for_console str_value active pipeline_iter)
           = None
        /\ printed (process_results_for_console str_value active pipeline_iter)
           = []).
Proof.
  destruct (first_stop pipeline_iter)
    as [Hall|(before & stop & after & -> & Hbefore & Hstop)].
  - left. by rewrite process_results_completed.
  - right. exists stop. rewrite process_results_stopped by done. simpl.
    repeat split; try done.
    destruct (reason stop), active; discriminate.
Qed.

(** X9. The consumer returns normally exactly when the iterator yields no
    failed result whose reason is a user code error or an expectation
    failure. *)
Theorem process_results_returns_iff active (pipeline_iter : list (ExecutionResult Value Exn)) :
  outcome (process_results_for_console str_value active pipeline_iter) = Returned
  <-> Forall (fun result => stops_consumer result = false) pipeline_iter.
Proof.
  split.
  - destruct (first_stop pipeline_iter)
      as [Hall|(before & stop & after & -> & Hbefore & Hstop)]; [done|].
    rewrite process_results_stopped by done. simpl.
    destruct (reason stop), active; discriminate.
  - intros Hall. by rewrite process_results_completed.
Qed.

(** X10. When the consumer leaves through [click_context.exit], the exit
    status is 1, a click context is active, and the iterator holds a failed
    result whose reason is an expectation failure. *)
Theorem click_exit_status active (pipeline_iter : list (ExecutionResult Value Exn)) code :
  outcome (process_results_for_console str_value active pipeline_iter)
    = ClickExit code ->
  code = 1%Z /\ active = true
  /\ exists failed,
       In failed pipeline_iter /\ success failed = false
       /\ reason failed = EXPECTATION_FAILURE.
Proof.
  destruct (first_stop pipeline_iter)
    as [Hall|(before & stop & after & -> & Hbefore & Hstop)].
  - by rewrite process_results_completed.
  - rewrite process_results_stopped by done. simpl.
    unfold stops_consumer in Hstop.
    destruct (success stop) eqn:Hsuccess; [done|].
    destruct (reason stop) eqn:Hreason, active; try done.
    intros [= <-]. repeat split.
    exists stop. split; [|done]. apply in_or_app. right. by left.
Qed.

(** X11. What the consumer appends, logs, reports and prints does not
    depend on the results that follow the first result it stops on. *)
Theorem results_after_stop_ignored
    active (before : list (ExecutionResult Value Exn)) stop after after' :
  Forall (fun result => stops_consumer result = false) before ->
  stops_consumer stop = true ->
  let run := process_results_for_console str_value active (before ++ stop :: after) in
  let run' := process_results_for_console str_value active (before ++ stop :: after') in
  outcome run = outcome run'
  /\ results run = results run'
  /\ error_log run = error_log run'
  /\ reported run = reported run'
  /\ printed run = printed run'.
Proof.
  intros Hbefore Hstop. simpl. by rewrite !process_results_stopped.
Qed.

(** X12. Whether a click context is active changes nothing but the way the
    consumer ends on an expectation failure: the appended results, the
    logged errors, what is reported and printed, and the results left in
    the iterator are the same, and the outcome differs only where it is
    [click_context.exit(1)] with a context and the error of
    [click.get_current_context] without. *)
Theorem click_context_only_decides_exit (pipeline_iter : list (ExecutionResult Value Exn)) :
  let run := process_results_for_console str_value true pipeline_iter in
  let run' := process_results_for_console str_value false pipeline_iter in
  results run = results run'
  /\ error_log run = error_log run'
  /\ reported run = reported run'
  /\ printed run = printed run'
  /\ not_pulled run = not_pulled run'
  /\ (outcome run = outcome run'
      \/ (outcome run = ClickExit 1%Z /\ outcome run' = NoActiveClickContext)).
Proof.
  simpl. destruct (first_stop pipeline_iter)
    as [Hall|(before & stop & after & -> & Hbefore & Hstop)].
  - rewrite !process_results_completed by done. simpl. repeat split. by left.
  - rewrite !process_results_stopped by done. simpl. repeat split.
    destruct (reason stop); auto.
Qed.

(** X13. The consumer logs nothing unless it ends on an expectation failure:
    when it returns normally or raises a user exception, the error log is
    empty. *)
Theorem no_log_without_expectation_failure
    active (pipeline_iter : list (ExecutionResult Value Exn)) :
  (outcome (process_results_for_console str_value active pipeline_iter) = Returned
   \/ exists user_exception,
        outcome (process_results_for_console str_value active pipeline_iter)
        = Raised user_exception) ->
  error_log (process_results_for_console str_value active pipeline_iter) = [].
Proof.
  destruct (first_stop pipeline_iter)
    as [Hall|(before & stop & after & -> & Hbefore & Hstop)].
  - by rewrite process_results_completed.
  - rewrite process_results_stopped by done. simpl.
    destruct (reason stop); [done| |done].
    by destruct active; intros [|[? ?]].
Qed.

End ConsumerFacts.

Lemma click_exit_status_witness :
  outcome
    (process_results_for_console (fun v => v) true
       [succeeded; failed_expectation])
  = ClickExit 1%Z
  /\ exists failed,
       In failed [succeeded; failed_expectation] /\ success failed = false
       /\ reason failed = EXPECTATION_FAILURE.
Proof.
  split; [reflexivity|].
  exact (proj2 (proj2 (click_exit_status (fun v => v) true
                         [succeeded; failed_expectation] 1%Z eq_refl))).
Defined.

Lemma results_after_stop_ignored_witness :
  stops_consumer failed_user_code = true
  /\ results
       (process_results_for_console (fun v => v) true
          ([succeeded] ++ failed_user_code :: [succeeded]))
     = results
         (process_results_for_console (fun v => v) true
            ([succeeded] ++ failed_user_code :: [])).
Proof.
  split; [reflexivity|].
  apply (results_after_stop_ignored (fun v => v) true [succeeded]
           failed_user_code [succeeded] []); [by repeat constructor|reflexivity].
Defined.

Lemma no_log_without_expectation_failure_witness :
  (exists user_exception,
     outcome
       (process_results_for_console (fun v => v) true
          [succeeded; failed_user_code])
     = Raised user_exception)
  /\ error_log
       (process_results_for_console (fun v => v) true
          [succeeded; failed_user_code])
     = [].
Proof.
  assert (Hraised : exists user_exception,
            outcome
              (process_results_for_console (fun v => v) true
                 [succeeded; failed_user_code])
            = Raised user_exception) by (by eexists).
  split; [exact Hraised|].
  apply (no_log_without_expectation_failure (fun v => v) true
           [succeeded; failed_user_code]).
  right. exact Hraised.
Defined.

(** ** More on the metrics report *)

Section ReportFacts.

Context {Value : Type}.
Variable str_value : Value -> string.
Context {Exn : Type}.

Lemma result_report_header (result : ExecutionResult Value Exn) :
  List.filter is_report_header (result_report str_value result)
  = ["Metrics for " +:+ name result].
Proof.
  unfold result_report.
  rewrite filter_cons_true by apply prefix_append. f_equal.
  rewrite List.filter_app.
  rewrite (filter_map_nil is_report_header) by reflexivity.
  rewrite app_nil_r. apply filter_flat_map_nil. intros input_def.
  unfold input_block.
  destruct (metrics_covering_context _ _) as [|metric covered]; [done|].
  rewrite filter_cons_false by reflexivity.
  by apply (filter_map_nil is_report_header (metric_line str_value 8)
              (metric :: covered)).
Qed.

(** X14. The report opens the part of each result with one
    [Metrics for <name>] line; these lines are as many as the results and
    stand in the order of the results, whatever metrics lie between them. *)
Theorem report_headers_in_order (results : list (ExecutionResult Value Exn)) :
  List.filter is_report_header (print_metrics_to_console str_value results [])
  = map (fun result => "Metrics for " +:+ name result) results.
Proof.
  rewrite print_metrics_to_console_lines, app_nil_l.
  apply filter_flat_map_one, result_report_header.
Qed.

(** X15. For a result whose context returns no metric, neither for the
    solid nor for any of its inputs, the report is the [Metrics for <name>]
    line alone. *)
Theorem report_without_metrics (result : ExecutionResult Value Exn) :
  metrics_matching_context (context result) {["solid" := name result]} = [] ->
  (forall input_def,
     In input_def (solid_inputs (solid result)) ->
     metrics_covering_context (context result)
       (<["input" := input_name input_def]> {["solid" := name result]}) = []) ->
  print_metrics_to_console str_value [result] [] = ["Metrics for " +:+ name result].
Proof.
  intros Hsolid Hinputs.
  rewrite print_metrics_to_console_lines, app_nil_l.
  unfold flat_map at 1. rewrite app_nil_r. unfold result_report.
  rewrite Hsolid. simpl. rewrite app_nil_r. f_equal.
  induction (solid_inputs (solid result)) as [|input_def inputs IH]; [done|].
  simpl. unfold input_block at 1. rewrite Hinputs by (by left).
  apply IH. intros other Hother. apply Hinputs. by right.
Qed.

End ReportFacts.

Lemma report_without_metrics_witness :
  metrics_matching_context (context succeeded_without_metrics)
    {["solid" := name succeeded_without_metrics]} = []
  /\ print_metrics_to_console (fun v => v) [succeeded_without_metrics] []
     = ["Metrics for A"].
Proof.
  split; [reflexivity|].
  apply (report_without_metrics (fun v => v) succeeded_without_metrics);
    [reflexivity|]. intros input_def _. reflexivity.
Defined.

(** ** [do_execute_command] *)

Section ExecuteFacts.

Context {Value : Type}.
Variable str_value : Value -> string.
Context {Exn : Type}.
Context {EnvConfig Environment : Type}.
Variable load_yaml_from_path : string -> EnvConfig.
Variable construct_environment : EnvConfig -> Environment.
Variable execute_pipeline_iterator :
  PipelineDefinition -> Environment -> option (list string) ->
  list (ExecutionResult Value Exn).

(** X16. Whatever the engine does, [do_execute_command] runs the consumer on
    the iterator the engine returns for the environment constructed from the
    loaded document, called with [from_solids=None] when [from_solid] is
    [None] or the empty string, and with the list of [from_solid] alone for
    every other [from_solid]. *)
Theorem from_solid_reaches_engine active pipeline env :
  (forall from_solid,
     from_solid = None \/ from_solid = Some "" ->
     do_execute_command str_value load_yaml_from_path construct_environment
       execute_pipeline_iterator active pipeline env from_solid
     = process_results_for_console str_value active
         (execute_pipeline_iterator pipeline
            (construct_environment (load_yaml_from_path env)) None))
  /\ (forall start,
        start <> "" ->
        do_execute_command str_value load_yaml_from_path construct_environment
          execute_pipeline_iterator active pipeline env (Some start)
        = process_results_for_console str_value active
            (execute_pipeline_iterator pipeline
               (construct_environment (load_yaml_from_path env))
               (Some [start]))).
Proof.
  split.
  - by intros from_solid [->| ->].
  - intros start Hstart%str_truthy_nonempty.
    unfold do_execute_command, from_solids_argument. by rewrite Hstart.
Qed.

End ExecuteFacts.

Lemma from_solid_reaches_engine_witness :
  "B" <> ""
  /\ results
       (do_execute_command (fun v => v) (fun _ => tt) (fun _ => tt)
          sample_iterator true pipeline_a_b "env.yml" (Some "B"))
     = [succeeded]
  /\ results
       (do_execute_command (fun v => v) (fun _ => tt) (fun _ => tt)
          sample_iterator true pipeline_a_b "env.yml" (Some ""))
     = [succeeded; succeeded].
Proof.
  assert (Hstart : "B" <> "") by discriminate.
  destruct (from_solid_reaches_engine (fun v => v) (fun _ : string => tt)
              (fun _ : unit => tt) sample_iterator true pipeline_a_b "env.yml")
    as [Hnone Hsome].
  split; [exact Hstart|]. split.
  - by rewrite (Hsome "B" Hstart).
  - by rewrite (Hnone (Some "") (or_intror eq_refl)).
Defined.
